(** * OXY-SHIELD: the vital-sign risk assessment engine and its alert store

    A shallow embedding of [Backend/models/health_predictor.py]
    (class [HealthPredictor]), of the alert part of
    [Backend/database/db_manager.py] (class [DatabaseManager]) and of the
    [/api/vitals] handler of [Backend/app.py], followed by the properties
    the specification states about them.

    Numbers.  The readings are Python floats (the handler applies [float]
    to every field).  They are modelled as IEEE 754 binary64 values with
    the operations of [SpecFloat] at precision 53 and maximal exponent
    1024, so that a constant such as [36.1] or a product such as
    [(1.30 - 1.0) * 30] is the very double Python computes.  The Python
    ints the engine mixes with them (thresholds, score increments) are all
    far below 2^53: an int and the double of the same value compare and
    add alike, and the model holds them as doubles.  Severities and the
    health score are Python ints and stay in [Z]. *)

From Stdlib Require Import ZArith Bool Lia Sorted.
From Stdlib Require Import Floats.SpecFloat.
From stdpp Require Import base option list gmap strings.

Open Scope Z_scope.

(** ** Python floats *)

Module PyFloat.

Definition float : Type := spec_float.

Definition prec : Z := 53.
Definition emax : Z := 1024.

(** [float(n)] for a Python int [n]. *)
Definition of_Z (n : Z) : float := binary_normalize prec emax n 0 false.

Definition fadd : float -> float -> float := SFadd prec emax.
Definition fsub : float -> float -> float := SFsub prec emax.
Definition fmul : float -> float -> float := SFmul prec emax.
Definition fdiv : float -> float -> float := SFdiv prec emax.

(** Python's [x < y], [x > y], [x >= y]: all false on a NaN. *)
Definition flt (x y : float) : bool := SFltb x y.
Definition fgt (x y : float) : bool := SFltb y x.
Definition fge (x y : float) : bool := SFleb y x.
Definition fle (x y : float) : bool := SFleb x y.

(** A decimal constant [n / 10^k] of the source text: the double nearest
    to it, which the correctly rounded quotient of the two exactly
    representable integers is. *)
Definition dec (n : Z) (k : nat) : float := fdiv (of_Z n) (of_Z (10 ^ Z.of_nat k)).

Definition of_number (n : Number.number) : option float :=
  match n with
  | Number.Decimal (Decimal.Decimal i f) =>
      Some (dec (Z.of_int (Decimal.app_int i f)) (Decimal.nb_digits f))
  | _ => None
  end.

Definition to_number (x : float) : option Number.number := None.

Declare Scope pyfloat_scope.
Delimit Scope pyfloat_scope with F.
Bind Scope pyfloat_scope with float.
Number Notation spec_float of_number to_number : pyfloat_scope.

Infix "+" := fadd : pyfloat_scope.
Infix "-" := fsub : pyfloat_scope.
Infix "*" := fmul : pyfloat_scope.
Infix "/" := fdiv : pyfloat_scope.
Infix "<?" := flt : pyfloat_scope.
Infix ">?" := fgt : pyfloat_scope.
Infix ">=?" := fge : pyfloat_scope.
Infix "<=?" := fle : pyfloat_scope.

(** Two-argument [min(a, b)] of Python: the first argument is kept unless
    the second is strictly smaller. *)
Definition py_min (a b : float) : float := if (b <? a)%F then b else a.

(** [max(a, b, c, d)] of Python: a left-to-right scan that replaces the
    running maximum by an item strictly greater than it. *)
Definition py_max2 (m x : float) : float := if (x >? m)%F then x else m.
Definition py_max4 (a b c d : float) : float := py_max2 (py_max2 (py_max2 a b) c) d.

(** [round(x, 1)].  CPython prints [x] with one digit after the point,
    correctly rounded (ties to even on the exact binary value), and reads
    the decimal back: the result is the double nearest to [n / 10], [n]
    being the exact value of [10 * x] rounded half-even to an integer. *)
Definition half_even (num : Z) (k : positive) : Z :=
  let d := Z.pow_pos 2 k in
  let q := num / d in
  let r := num mod d in
  match (2 * r ?= d) with
  | Lt => q
  | Gt => q + 1
  | Eq => if Z.even q then q else q + 1
  end.

Definition round1 (x : float) : float :=
  match x with
  | S754_finite s m (Zneg k) =>
      match half_even (10 * Zpos m) k with
      | Zpos n => fdiv (S754_finite s n 0) 10
      | _ => S754_zero s
      end
  | _ => x
  end.

End PyFloat.
Import PyFloat.

(** ** The engine: [class HealthPredictor] *)

Inductive Status := normal | warning | critical.

(** Risk levels, the strings ['low'], ['moderate'], ['high'] and
    ['critical'] of the source. *)
Inductive Level := low | moderate | high | critical_level.

Inductive Priority := CRITICAL | URGENT | HIGH | ROUTINE.

(** The dict [_assess_vital] returns. *)
Record VitalStatus := {
  value : float;
  status : Status;
  severity : Z;
  in_range : bool
}.

(** The dict [_assess_blood_pressure] returns. *)
Record BPStatus := {
  bp_systolic : float;
  bp_diastolic : float;
  bp_status : Status;
  bp_severity : Z;
  bp_in_range : bool
}.

(** The dict each of the four predictors returns. *)
Record RiskPrediction := {
  percentage : float;
  level : Level;
  confidence : float
}.

(** The dict [_determine_overall_risk] returns. *)
Record OverallRisk := {
  overall_percentage : float;
  overall_level : Level
}.

Record Recommendation := {
  priority : Priority;
  action : string;
  icon : string
}.

Inductive Trend := stable | monitor | deteriorating.

Record Thresholds := {
  th_min : float;
  th_max : float;
  critical_low : float;
  critical_high : float
}.

#[global] Instance Status_eq_dec : EqDecision Status := ltac:(solve_decision).
#[global] Instance Level_eq_dec : EqDecision Level := ltac:(solve_decision).
#[global] Instance Priority_eq_dec : EqDecision Priority := ltac:(solve_decision).

Module HealthPredictor.

Definition model_version : string := "1.0.0".

(** [self.thresholds] *)
Definition thresholds : gmap string Thresholds :=
  {[ "heart_rate" := {| th_min := 60; th_max := 100; critical_low := 50; critical_high := 120 |};
     "spo2" := {| th_min := 92; th_max := 100; critical_low := 88; critical_high := 100 |};
     "temperature" := {| th_min := 36.1; th_max := 37.2; critical_low := 35.5; critical_high := 38.0 |};
     "systolic" := {| th_min := 90; th_max := 130; critical_low := 80; critical_high := 150 |};
     "diastolic" := {| th_min := 60; th_max := 85; critical_low := 50; critical_high := 95 |} ]}.

(** [self.altitude_factors], in the order the dict literal lists it. *)
Definition altitude_factors : list (Z * float) :=
  [ (0, 1.0%F); (1000, 1.05%F); (2500, 1.15%F);
    (4000, 1.30%F); (5500, 1.50%F); (7000, 1.75%F) ].

(** [sorted(items, reverse=True)] on pairs with distinct int keys: an
    insertion sort by decreasing key. *)
Fixpoint insert_desc (p : Z * float) (l : list (Z * float)) : list (Z * float) :=
  match l with
  | [] => [p]
  | q :: l' => if fst q <? fst p then p :: l else q :: insert_desc p l'
  end.

Definition sorted_reverse (l : list (Z * float)) : list (Z * float) :=
  foldr insert_desc [] l.

(** [_assess_vital]: [None] is the [KeyError] of [self.thresholds[vital_name]]. *)
Definition _assess_vital (vital_name : string) (v : float) : option VitalStatus :=
  th ← thresholds !! vital_name;
  let '(st, sev) :=
    if (v <? critical_low th)%F || (v >? critical_high th)%F then (critical, 2)
    else if (v <? th_min th)%F || (v >? th_max th)%F then (warning, 1)
    else (normal, 0) in
  Some {| value := v; status := st; severity := sev;
          in_range := bool_decide (st = normal) |}.

Definition _assess_blood_pressure (systolic diastolic : float) : option BPStatus :=
  sys_status ← _assess_vital "systolic" systolic;
  dia_status ← _assess_vital "diastolic" diastolic;
  let overall_status :=
    if bool_decide (status sys_status = critical) || bool_decide (status dia_status = critical)
    then critical
    else if bool_decide (status sys_status = warning) || bool_decide (status dia_status = warning)
    then warning
    else normal in
  Some {| bp_systolic := value sys_status;
          bp_diastolic := value dia_status;
          bp_status := overall_status;
          bp_severity := Z.max (severity sys_status) (severity dia_status);
          bp_in_range := in_range sys_status && in_range dia_status |}.

(** [_calculate_health_score], on the four severities it reads. *)
Definition health_score_of (hr_sev spo2_sev temp_sev bp_sev : Z) : Z :=
  let score := 100 in
  let score := score - hr_sev * 15 in
  let score := score - spo2_sev * 20 in
  let score := score - temp_sev * 10 in
  let score := score - bp_sev * 15 in
  Z.max 0 (Z.min 100 score).

Definition _calculate_health_score (hr_status spo2_status temp_status : VitalStatus)
    (bp : BPStatus) : Z :=
  health_score_of (severity hr_status) (severity spo2_status)
                  (severity temp_status) (bp_severity bp).

(** [_get_altitude_factor]: the loop over the sorted items. *)
Fixpoint first_reached (altitude : float) (items : list (Z * float)) : float :=
  match items with
  | [] => 1.0%F
  | (alt, factor) :: rest =>
      if (altitude >=? of_Z alt)%F then factor else first_reached altitude rest
  end.

Definition _get_altitude_factor (altitude : float) : float :=
  first_reached altitude (sorted_reverse altitude_factors).

(** ['high' if risk_score > 60 else 'moderate' if risk_score > 30 else 'low'] *)
Definition risk_level (risk_score : float) : Level :=
  if (risk_score >? 60)%F then high
  else if (risk_score >? 30)%F then moderate
  else low.

Definition _predict_hypoxia_risk (spo2 altitude heart_rate : float) : RiskPrediction :=
  let risk_score := 0%F in
  let risk_score :=
    if (spo2 <? 88)%F then (risk_score + 60)%F
    else if (spo2 <? 92)%F then (risk_score + 30)%F
    else if (spo2 <? 95)%F then (risk_score + 10)%F
    else risk_score in
  let altitude_factor := _get_altitude_factor altitude in
  let risk_score := (risk_score + (altitude_factor - 1.0) * 30)%F in
  let risk_score := if (heart_rate >? 100)%F then (risk_score + 10)%F else risk_score in
  let risk_score := py_min 100 risk_score in
  {| percentage := round1 risk_score;
     level := risk_level risk_score;
     confidence := 0.85 |}.

Definition _predict_altitude_sickness (altitude spo2 heart_rate : float) : RiskPrediction :=
  let risk_score := 0%F in
  let risk_score :=
    if (altitude >? 5500)%F then (risk_score + 50)%F
    else if (altitude >? 4000)%F then (risk_score + 30)%F
    else if (altitude >? 2500)%F then (risk_score + 10)%F
    else risk_score in
  let risk_score :=
    if (spo2 <? 90)%F then (risk_score + 30)%F
    else if (spo2 <? 94)%F then (risk_score + 15)%F
    else risk_score in
  let risk_score :=
    if (heart_rate >? 110)%F then (risk_score + 20)%F
    else if (heart_rate >? 95)%F then (risk_score + 10)%F
    else risk_score in
  let risk_score := py_min 100 risk_score in
  {| percentage := round1 risk_score;
     level := risk_level risk_score;
     confidence := 0.80 |}.

Definition _predict_cardiac_stress (heart_rate systolic diastolic : float) : RiskPrediction :=
  let risk_score := 0%F in
  let risk_score :=
    if (heart_rate >? 120)%F then (risk_score + 40)%F
    else if (heart_rate >? 100)%F then (risk_score + 20)%F
    else if (heart_rate <? 50)%F then (risk_score + 30)%F
    else risk_score in
  let risk_score :=
    if (systolic >? 140)%F || (diastolic >? 90)%F then (risk_score + 30)%F
    else if (systolic >? 130)%F || (diastolic >? 85)%F then (risk_score + 15)%F
    else risk_score in
  let risk_score :=
    if (systolic <? 90)%F || (diastolic <? 60)%F then (risk_score + 30)%F
    else risk_score in
  let risk_score := py_min 100 risk_score in
  {| percentage := round1 risk_score;
     level := risk_level risk_score;
     confidence := 0.78 |}.

Definition _predict_hypothermia (temperature altitude : float) : RiskPrediction :=
  let risk_score := 0%F in
  let risk_score :=
    if (temperature <? 35)%F then (risk_score + 70)%F
    else if (temperature <? 35.5)%F then (risk_score + 40)%F
    else if (temperature <? 36)%F then (risk_score + 20)%F
    else risk_score in
  let risk_score :=
    if (altitude >? 5000)%F then (risk_score + 15)%F
    else if (altitude >? 3000)%F then (risk_score + 5)%F
    else risk_score in
  let risk_score := py_min 100 risk_score in
  {| percentage := round1 risk_score;
     level := risk_level risk_score;
     confidence := 0.82 |}.

(** [_determine_overall_risk], on the four percentages it reads. *)
Definition overall_of (hypoxia altitude_sickness cardiac hypothermia : float) : OverallRisk :=
  let max_risk := py_max4 hypoxia altitude_sickness cardiac hypothermia in
  let avg_risk := ((hypoxia + altitude_sickness + cardiac + hypothermia) / 4)%F in
  let overall := (max_risk * 0.6 + avg_risk * 0.4)%F in
  let lvl :=
    if (overall >? 70)%F then critical_level
    else if (overall >? 50)%F then high
    else if (overall >? 30)%F then moderate
    else low in
  {| overall_percentage := round1 overall; overall_level := lvl |}.

Definition _determine_overall_risk (hypoxia altitude_sickness cardiac hypothermia : RiskPrediction)
    : OverallRisk :=
  overall_of (percentage hypoxia) (percentage altitude_sickness)
             (percentage cardiac) (percentage hypothermia).

End HealthPredictor.

(** The dict [predict] returns.  The two nested dicts have fixed keys and
    are flattened into fields; [predicted_at] is the clock reading. *)
Record AssessmentResult := {
  health_score : Z;
  overall_risk_level : Level;
  overall_risk_percentage : float;
  va_heart_rate : VitalStatus;
  va_spo2 : VitalStatus;
  va_temperature : VitalStatus;
  va_blood_pressure : BPStatus;
  rp_hypoxia : RiskPrediction;
  rp_altitude_sickness : RiskPrediction;
  rp_cardiac_stress : RiskPrediction;
  rp_hypothermia : RiskPrediction;
  recommendations : list Recommendation;
  health_trend : Trend;
  altitude_adjustment : float;
  predicted_at : Z;
  res_model_version : string
}.

Module Engine.
Import HealthPredictor.

Definition rec_evacuation : Recommendation :=
  {| priority := CRITICAL; action := "Immediate medical evacuation required"; icon := "🚨" |}.
Definition rec_oxygen : Recommendation :=
  {| priority := URGENT; action := "Administer supplemental oxygen immediately"; icon := "💨" |}.
Definition rec_monitor_oxygen : Recommendation :=
  {| priority := HIGH; action := "Monitor oxygen saturation closely, consider oxygen therapy";
     icon := "⚠️" |}.
Definition rec_cardiac : Recommendation :=
  {| priority := URGENT; action := "Cardiac assessment required - possible arrhythmia";
     icon := "♥️" |}.
Definition rec_hypothermia : Recommendation :=
  {| priority := URGENT; action := "Hypothermia treatment - warm gradually, avoid extremes";
     icon := "🌡️" |}.
Definition rec_hyperthermia : Recommendation :=
  {| priority := URGENT; action := "Hyperthermia treatment - cool down, hydrate"; icon := "🌡️" |}.
Definition rec_blood_pressure : Recommendation :=
  {| priority := HIGH; action := "Blood pressure management required"; icon := "⚡" |}.
Definition rec_routine : Recommendation :=
  {| priority := ROUTINE; action := "Continue standard monitoring protocol"; icon := "✓" |}.

(** [_generate_recommendations]; each [append] is a [++ [_]]. *)
Definition _generate_recommendations (overall_risk : OverallRisk)
    (hr_status spo2_status temp_status : VitalStatus) (bp : BPStatus) : list Recommendation :=
  let recommendations := [] in
  let recommendations :=
    if bool_decide (overall_level overall_risk = critical_level)
    then recommendations ++ [rec_evacuation] else recommendations in
  let recommendations :=
    if bool_decide (status spo2_status = critical) then recommendations ++ [rec_oxygen]
    else if bool_decide (status spo2_status = warning) then recommendations ++ [rec_monitor_oxygen]
    else recommendations in
  let recommendations :=
    if bool_decide (status hr_status = critical)
    then recommendations ++ [rec_cardiac] else recommendations in
  let recommendations :=
    if bool_decide (status temp_status = critical) then
      if (value temp_status <? 35.5)%F then recommendations ++ [rec_hypothermia]
      else recommendations ++ [rec_hyperthermia]
    else recommendations in
  let recommendations :=
    if bool_decide (bp_status bp = critical)
    then recommendations ++ [rec_blood_pressure] else recommendations in
  let recommendations :=
    if bool_decide (overall_level overall_risk ∈ [low; moderate])
       && bool_decide (length recommendations = 0%nat)
    then recommendations ++ [rec_routine] else recommendations in
  recommendations.

Definition _predict_trend (score : Z) : Trend :=
  if score >=? 85 then stable
  else if score >=? 70 then monitor
  else deteriorating.

(** [predict]: [vitals] is the dict it receives, [now] the clock reading
    of [datetime.now()].  [round(health_score, 1)] of an int is that int. *)
Definition predict (now : Z) (vitals : gmap string float) : option AssessmentResult :=
  let heart_rate := default 72%F (vitals !! "heart_rate") in
  let spo2 := default 96%F (vitals !! "spo2") in
  let temperature := default 36.8%F (vitals !! "temperature") in
  let systolic := default 120%F (vitals !! "systolic") in
  let diastolic := default 80%F (vitals !! "diastolic") in
  let altitude := default 0%F (vitals !! "altitude") in
  hr_status ← _assess_vital "heart_rate" heart_rate;
  spo2_status ← _assess_vital "spo2" spo2;
  temp_status ← _assess_vital "temperature" temperature;
  bp ← _assess_blood_pressure systolic diastolic;
  let score := _calculate_health_score hr_status spo2_status temp_status bp in
  let hypoxia_risk := _predict_hypoxia_risk spo2 altitude heart_rate in
  let altitude_sickness_risk := _predict_altitude_sickness altitude spo2 heart_rate in
  let cardiac_stress_risk := _predict_cardiac_stress heart_rate systolic diastolic in
  let hypothermia_risk := _predict_hypothermia temperature altitude in
  let overall_risk :=
    _determine_overall_risk hypoxia_risk altitude_sickness_risk
                            cardiac_stress_risk hypothermia_risk in
  let recs := _generate_recommendations overall_risk hr_status spo2_status temp_status bp in
  let trend := _predict_trend score in
  Some {| health_score := score;
          overall_risk_level := overall_level overall_risk;
          overall_risk_percentage := overall_percentage overall_risk;
          va_heart_rate := hr_status;
          va_spo2 := spo2_status;
          va_temperature := temp_status;
          va_blood_pressure := bp;
          rp_hypoxia := hypoxia_risk;
          rp_altitude_sickness := altitude_sickness_risk;
          rp_cardiac_stress := cardiac_stress_risk;
          rp_hypothermia := hypothermia_risk;
          recommendations := recs;
          health_trend := trend;
          altitude_adjustment := _get_altitude_factor altitude;
          predicted_at := now;
          res_model_version := model_version |}.

(** The reading of the module's first self-test. *)
Definition reading_normal : gmap string float :=
  {[ "heart_rate" := 72%F; "spo2" := 96%F; "temperature" := 36.8%F;
     "systolic" := 120%F; "diastolic" := 80%F; "altitude" := 5400%F ]}.

End Engine.
Import HealthPredictor Engine.

(** ** The alert table: [class DatabaseManager]

    Only the [alerts] table is modelled, as the list of its rows in
    insertion order; the [vitals] table is read by no property below.
    A time is the instant of a [datetime.now()] in microseconds: the ISO
    strings the code stores and lets SQLite compare are, for instants of
    one era, ordered as the instants are. *)

Module DatabaseManager.

(** [timedelta(minutes=10)] *)
Definition ten_minutes : Z := 600000000.

(** The JSON object stored in [vitals_snapshot]. *)
Record Snapshot := {
  snap_heart_rate : option float;
  snap_spo2 : option float;
  snap_temperature : option float;
  snap_risk_percentage : option float
}.

Record Alert := {
  alert_id : Z;
  alert_soldier_id : string;
  alert_type : string;
  alert_severity : Level;
  message : string;
  vitals_snapshot : Snapshot;
  acknowledged : bool;
  acknowledged_at : option Z;
  created_at : Z
}.

(** The entries of the [ml_analysis] dict the alert logic reads with
    [.get]; [None] is an absent key. *)
Record MLAnalysis := {
  ml_overall_risk_level : option Level;
  ml_recommendations : option (list Recommendation);
  ml_overall_risk_percentage : option float
}.

(** The entries of [data] that [store_vitals] and the alert logic depend
    on, each read with [.get].  For ['soldier_id'] and ['timestamp'],
    which go into [NOT NULL] columns, [None] is an absent or null entry,
    or a value sqlite3 cannot bind. *)
Record VitalsData := {
  soldier_id : option string;
  data_timestamp : option string;
  data_heart_rate : option float;
  data_spo2 : option float;
  data_temperature : option float;
  data_ml_analysis : MLAnalysis
}.

(** The [ml_analysis] dict of an assessment. *)
Definition ml_of_result (r : AssessmentResult) : MLAnalysis :=
  {| ml_overall_risk_level := Some (overall_risk_level r);
     ml_recommendations := Some (recommendations r);
     ml_overall_risk_percentage := Some (overall_risk_percentage r) |}.

(** The [WHERE] clause of the [SELECT COUNT( * )]. *)
Definition similar_recent (sid : string) (lvl : Level) (ten_min_ago : Z) (a : Alert) : bool :=
  bool_decide (alert_soldier_id a = sid)
  && bool_decide (alert_severity a = lvl)
  && negb (acknowledged a)
  && (created_at a >=? ten_min_ago).

(** [AUTOINCREMENT] on a table no row is ever deleted from. *)
Definition next_id (alerts : list Alert) : Z := Z.of_nat (length alerts) + 1.

(** [_check_and_create_alert]: [t_query] and [t_insert] are its two clock
    readings, in that order.  [None] is the exception sqlite3 raises on
    the [NOT NULL] column when [data] has no ['soldier_id']. *)
Definition _check_and_create_alert (t_query t_insert : Z) (data : VitalsData)
    (ml_analysis : MLAnalysis) (alerts : list Alert) : option (list Alert) :=
  let risk_level := default low (ml_overall_risk_level ml_analysis) in
  if bool_decide (risk_level ∈ [high; critical_level]) then
    let ten_min_ago := t_query - ten_minutes in
    let existing_count :=
      match soldier_id data with
      | Some sid => length (filter (λ a, similar_recent sid risk_level ten_min_ago a = true) alerts)
      | None => 0%nat
      end in
    if bool_decide (0 < existing_count)%nat then Some alerts
    else
      let recs := default [] (ml_recommendations ml_analysis) in
      let msg :=
        match recs with
        | r :: _ => action r
        | [] => "Health risk detected"
        end in
      sid ← soldier_id data;
      Some (alerts ++
        [{| alert_id := next_id alerts;
            alert_soldier_id := sid;
            alert_type := "HEALTH_RISK";
            alert_severity := risk_level;
            message := msg;
            vitals_snapshot :=
              {| snap_heart_rate := data_heart_rate data;
                 snap_spo2 := data_spo2 data;
                 snap_temperature := data_temperature data;
                 snap_risk_percentage := ml_overall_risk_percentage ml_analysis |};
            acknowledged := false;
            acknowledged_at := None;
            created_at := t_insert |}])
  else Some alerts.

(** [store_vitals], as far as the alert table goes.  The insert into
    [vitals] comes first: it fails on a ['soldier_id'] or a ['timestamp']
    that is [None], both columns being [NOT NULL], and then the alert
    check is not reached.  Every exception is caught and answered by
    [False]. *)
Definition store_vitals (t_query t_insert : Z) (data : VitalsData) (alerts : list Alert)
    : list Alert * bool :=
  match soldier_id data, data_timestamp data with
  | Some _, Some _ =>
      match _check_and_create_alert t_query t_insert data (data_ml_analysis data) alerts with
      | Some alerts' => (alerts', true)
      | None => (alerts, false)
      end
  | _, _ => (alerts, false)
  end.

(** [acknowledge_alert] *)
Definition acknowledge_alert (now : Z) (id : Z) (alerts : list Alert) : list Alert :=
  (λ a, if bool_decide (alert_id a = id)
        then {| alert_id := alert_id a;
                alert_soldier_id := alert_soldier_id a;
                alert_type := alert_type a;
                alert_severity := alert_severity a;
                message := message a;
                vitals_snapshot := vitals_snapshot a;
                acknowledged := true;
                acknowledged_at := Some now;
                created_at := created_at a |}
        else a) <$> alerts.

End DatabaseManager.

(** ** The [/api/vitals] handler of [app.py] *)

Module App.

(** A value of the JSON payload, by what [float(v)] makes of it. *)
Inductive JValue :=
| JNumeric (x : float)   (* a number, or a string that spells one: [float(v) = x] *)
| JText (s : string).    (* any other value: [float(v)] raises *)

Definition py_float (v : JValue) : option float :=
  match v with
  | JNumeric x => Some x
  | JText _ => None
  end.

(** The entries of [response_data] the properties read; its ['timestamp']
    and ['processed_at'] are left out. *)
Record ResponseData := {
  resp_soldier_id : JValue;
  resp_vitals : gmap string float;
  resp_ml_analysis : AssessmentResult
}.

Inductive Response :=
| Response400 (error : string)
| Response200 (data : ResponseData)
| Response500.

Definition required_fields : list string :=
  ["soldier_id"; "heart_rate"; "spo2"; "temperature"].

(** The validation loop: the first required field that is not in [data]. *)
Definition first_missing (data : gmap string JValue) : option string :=
  find (λ field, bool_decide (data !! field = None)) required_fields.

(** The dict [vitals] the handler builds; [None] is an exception of
    [float], or of a subscript, which the handler's [except] turns into
    the 500 answer. *)
Definition extract_vitals (data : gmap string JValue) : option (gmap string float) :=
  hr ← data !! "heart_rate" ≫= py_float;
  spo2 ← data !! "spo2" ≫= py_float;
  temperature ← data !! "temperature" ≫= py_float;
  systolic ← py_float (default (JNumeric 120) (data !! "systolic"));
  diastolic ← py_float (default (JNumeric 80) (data !! "diastolic"));
  altitude ← py_float (default (JNumeric 0) (data !! "altitude"));
  Some ({[ "heart_rate" := hr; "spo2" := spo2; "temperature" := temperature;
           "systolic" := systolic; "diastolic" := diastolic;
           "altitude" := altitude ]} : gmap string float).

(** [receive_vitals], up to the answer it sends; storing the result and
    broadcasting it are the collaborators' effects. *)
Definition receive_vitals (now : Z) (data : gmap string JValue) : Response :=
  match first_missing data with
  | Some field => Response400 ("Missing required field: " +:+ field)
  | None =>
      match
        sid ← data !! "soldier_id";
        vitals ← extract_vitals data;
        ml_results ← predict now vitals;
        Some {| resp_soldier_id := sid; resp_vitals := vitals;
                resp_ml_analysis := ml_results |}
      with
      | Some response_data => Response200 response_data
      | None => Response500
      end
  end.

End App.

(** The dict the handler hands to [store_vitals]:
    [{**vitals, 'ml_analysis': ml_results, ...}], for a payload whose
    ['soldier_id'] is the string [sid]; [timestamp] is its
    [data.get('timestamp', datetime.now().isoformat())]. *)
Definition response_dict (sid : string) (timestamp : option string)
    (vitals : gmap string float) (ml_results : AssessmentResult)
    : DatabaseManager.VitalsData :=
  {| DatabaseManager.soldier_id := Some sid;
     DatabaseManager.data_timestamp := timestamp;
     DatabaseManager.data_heart_rate := vitals !! "heart_rate";
     DatabaseManager.data_spo2 := vitals !! "spo2";
     DatabaseManager.data_temperature := vitals !! "temperature";
     DatabaseManager.data_ml_analysis := DatabaseManager.ml_of_result ml_results |}.

(** ** Runs of the alert table *)

Module Run.
Import DatabaseManager.

(** What reaches the table, one call at a time: a [store_vitals] with its
    two clock readings, or an operator's [acknowledge_alert]. *)
Inductive Event :=
| Store (t_query t_insert : Z) (data : VitalsData)
| Acknowledge (now : Z) (id : Z).

Definition step (alerts : list Alert) (e : Event) : list Alert :=
  match e with
  | Store t_query t_insert data => fst (store_vitals t_query t_insert data alerts)
  | Acknowledge now id => acknowledge_alert now id alerts
  end.

Definition run (alerts : list Alert) (events : list Event) : list Alert :=
  foldl step alerts events.

(** Within one call the clock does not go back between the query and the
    insert. *)
Definition clock_ok (e : Event) : Prop :=
  match e with
  | Store t_query t_insert _ => t_query <= t_insert
  | Acknowledge _ _ => True
  end.

(** The risk level a call of [store_vitals] carries. *)
Definition level_of (data : VitalsData) : Level :=
  default low (ml_overall_risk_level (data_ml_analysis data)).

Definition same_key (a b : Alert) : Prop :=
  alert_soldier_id a = alert_soldier_id b /\ alert_severity a = alert_severity b.

(** No two unacknowledged rows of one soldier and one severity lie within
    ten minutes of each other. *)
Definition well_spaced (alerts : list Alert) : Prop :=
  forall (i j : nat) (a b : Alert),
    i <> j -> alerts !! i = Some a -> alerts !! j = Some b ->
    same_key a b -> acknowledged a = false -> acknowledged b = false ->
    ten_minutes < Z.abs (created_at b - created_at a).

(** The same, read along the insertion order; this is what a run keeps. *)
Definition spaced_in_order (alerts : list Alert) : Prop :=
  forall (i j : nat) (a b : Alert),
    (i < j)%nat -> alerts !! i = Some a -> alerts !! j = Some b ->
    same_key a b -> acknowledged a = false -> acknowledged b = false ->
    created_at a + ten_minutes < created_at b.

Definition minute : Z := 60000000.

(** A reading of soldier [sid], with its timestamp, whose assessment is
    classified [lvl]. *)
Definition classified (sid : string) (lvl : Level) (data : VitalsData) : Prop :=
  soldier_id data = Some sid
  /\ is_Some (data_timestamp data)
  /\ ml_overall_risk_level (data_ml_analysis data) = Some lvl.

(** Sample calls: soldier SOL-7842-ALPHA, classified high by the reading
    (111, 94, 36.8), and classified low by the data of the module's
    self-test. *)
Definition sample_high : VitalsData :=
  {| soldier_id := Some "SOL-7842-ALPHA";
     data_timestamp := Some "2026-02-04T10:30:00";
     data_heart_rate := Some 111%F; data_spo2 := Some 94%F;
     data_temperature := Some 36.8%F;
     data_ml_analysis :=
       {| ml_overall_risk_level := Some high;
          ml_recommendations := Some [];
          ml_overall_risk_percentage := Some 56%F |} |}.

Definition sample_low : VitalsData :=
  {| soldier_id := Some "SOL-7842-ALPHA";
     data_timestamp := Some "2026-02-04T10:30:00";
     data_heart_rate := Some 72%F; data_spo2 := Some 96%F;
     data_temperature := Some 36.8%F;
     data_ml_analysis :=
       {| ml_overall_risk_level := Some low;
          ml_recommendations := Some [];
          ml_overall_risk_percentage := Some 15.2%F |} |}.

(** The same high reading with a null timestamp. *)
Definition sample_high_no_timestamp : VitalsData :=
  {| soldier_id := Some "SOL-7842-ALPHA";
     data_timestamp := None;
     data_heart_rate := Some 111%F; data_spo2 := Some 94%F;
     data_temperature := Some 36.8%F;
     data_ml_analysis :=
       {| ml_overall_risk_level := Some high;
          ml_recommendations := Some [];
          ml_overall_risk_percentage := Some 56%F |} |}.

End Run.

(** ** The specification's words *)

Module Spec.

(** The breakpoints of the altitude factor, as the specification lists
    them. *)
Definition breakpoints : list (Z * float) :=
  [ (0, 1.0%F); (1000, 1.05%F); (2500, 1.15%F);
    (4000, 1.30%F); (5500, 1.50%F); (7000, 1.75%F) ].

Definition reached (altitude : float) (b : Z) : Prop := (of_Z b <=? altitude)%F = true.

(** [result] is the factor of the largest breakpoint of [table] that is
    [<= altitude], and [1.0] when there is none. *)
Definition step_value (table : list (Z * float)) (altitude result : float) : Prop :=
  (exists b f, (b, f) ∈ table /\ reached altitude b
      /\ (forall b' f', (b', f') ∈ table -> reached altitude b' -> b' <= b)
      /\ result = f)
  \/ ((forall b f, (b, f) ∈ table -> ~ reached altitude b) /\ result = 1.0%F).

(** [m] is a maximum of the list [l]. *)
Definition is_max (m : float) (l : list float) : Prop :=
  m ∈ l /\ forall x, x ∈ l -> (x <=? m)%F = true.

Definition is_nan (x : float) : bool :=
  match x with S754_nan => true | _ => false end.

Definition mean4 (h a c t : float) : float := ((h + a + c + t) / 4)%F.

(** [0.6 × max + 0.4 × mean] *)
Definition weighted (m mean : float) : float := (0.6 * m + 0.4 * mean)%F.

(** [>70 → critical; >50 → high; >30 → moderate; else low] *)
Definition aggregate_level (overall : float) : Level :=
  if (overall >? 70)%F then critical_level
  else if (overall >? 50)%F then high
  else if (overall >? 30)%F then moderate
  else low.

(** A percentage in [[0, 100]]. *)
Definition in_0_100 (x : float) : Prop := (0 <=? x)%F = true /\ (x <=? 100)%F = true.

(** The rule of the vital assessor, on the thresholds [th]. *)
Definition below_or_above (v lo hi : float) : Prop :=
  (v <? lo)%F = true \/ (v >? hi)%F = true.

Definition follows_rule (th : Thresholds) (v : float) (r : VitalStatus) : Prop :=
  value r = v
  /\ (below_or_above v (critical_low th) (critical_high th) ->
        status r = critical /\ severity r = 2)
  /\ (~ below_or_above v (critical_low th) (critical_high th) ->
      below_or_above v (th_min th) (th_max th) ->
        status r = warning /\ severity r = 1)
  /\ (~ below_or_above v (critical_low th) (critical_high th) ->
      ~ below_or_above v (th_min th) (th_max th) ->
        status r = normal /\ severity r = 0)
  /\ (in_range r = true <-> status r = normal).

(** What the specification expects of the first self-test reading, with
    the hypoxia percentage and the overall levels allowed left open. *)
Definition normal_reading_assessment (hypoxia_percentage : float) (levels : list Level)
    : Prop :=
  forall now, exists r,
    predict now reading_normal = Some r
    /\ (status (va_heart_rate r) = normal /\ in_range (va_heart_rate r) = true)
    /\ (status (va_spo2 r) = normal /\ in_range (va_spo2 r) = true)
    /\ (status (va_temperature r) = normal /\ in_range (va_temperature r) = true)
    /\ (bp_status (va_blood_pressure r) = normal /\ bp_in_range (va_blood_pressure r) = true)
    /\ health_score r = 100
    /\ percentage (rp_hypoxia r) = hypoxia_percentage
    /\ level (rp_hypoxia r) = low
    /\ overall_risk_level r ∈ levels
    /\ exists rec, recommendations r = [rec] /\ priority rec = ROUTINE.

(** A reading that lacks a required field. *)
Definition lacks_required {A : Type} (vitals : gmap string A) : Prop :=
  vitals !! "heart_rate" = None \/ vitals !! "spo2" = None \/ vitals !! "temperature" = None.

(** The fields a payload must have, in the order the handler looks for
    them. *)
Definition required_in_order : list string :=
  ["soldier_id"; "heart_rate"; "spo2"; "temperature"].

(** The payload lacks one of them. *)
Definition payload_lacks_required {A : Type} (data : gmap string A) : Prop :=
  exists field, field ∈ required_in_order /\ data !! field = None.

(** [field] is the first of them the payload lacks. *)
Definition first_missing_field {A : Type} (data : gmap string A) (field : string) : Prop :=
  exists before after,
    required_in_order = before ++ field :: after
    /\ data !! field = None
    /\ forall f, f ∈ before -> is_Some (data !! f).

(** The engine fails on every reading that lacks a required field. *)
Definition engine_fails_fast : Prop :=
  forall now vitals, lacks_required vitals -> predict now vitals = None.

(** The reading with the documented defaults of the engine filled in. *)
Definition with_defaults (vitals : gmap string float) : gmap string float :=
  {[ "heart_rate" := default 72%F (vitals !! "heart_rate");
     "spo2" := default 96%F (vitals !! "spo2");
     "temperature" := default 36.8%F (vitals !! "temperature");
     "systolic" := default 120%F (vitals !! "systolic");
     "diastolic" := default 80%F (vitals !! "diastolic");
     "altitude" := default 0%F (vitals !! "altitude") ]}.

(** The message of an alert is the action text of a recommendation of the
    assessment, and none of the others outranks it. *)
Definition rank (p : Priority) : Z :=
  match p with CRITICAL => 3 | URGENT => 2 | HIGH => 1 | ROUTINE => 0 end.

Definition top_priority_message (recs : list Recommendation) (msg : string) : Prop :=
  exists r, r ∈ recs /\ (forall r', r' ∈ recs -> rank (priority r') <= rank (priority r))
            /\ msg = action r.

(** Every alert the table gains carries the top-priority action. *)
Definition alerts_carry_top_priority : Prop :=
  forall t_query t_insert data alerts a,
    DatabaseManager._check_and_create_alert t_query t_insert data
      (DatabaseManager.data_ml_analysis data) alerts = Some (alerts ++ [a]) ->
    top_priority_message
      (default [] (DatabaseManager.ml_recommendations (DatabaseManager.data_ml_analysis data)))
      (DatabaseManager.message a).

(** The message the code gives a new alert. *)
Definition first_action_or_fallback (recs : list Recommendation) : string :=
  match recs with
  | r :: _ => action r
  | [] => "Health risk detected"
  end.

(** Sample statuses: a normal and a critical vital, a normal and a
    critical blood pressure. *)
Definition sample_normal : VitalStatus :=
  {| value := 72%F; status := normal; severity := 0; in_range := true |}.
Definition sample_critical : VitalStatus :=
  {| value := 130%F; status := critical; severity := 2; in_range := false |}.
Definition sample_bp_normal : BPStatus :=
  {| bp_systolic := 120%F; bp_diastolic := 80%F; bp_status := normal;
     bp_severity := 0; bp_in_range := true |}.
Definition sample_bp_critical : BPStatus :=
  {| bp_systolic := 160%F; bp_diastolic := 100%F; bp_status := critical;
     bp_severity := 2; bp_in_range := false |}.

(** A reading classified high that no per-vital rule matches. *)
Definition reading_high_no_rule : gmap string float :=
  {[ "heart_rate" := 111%F; "spo2" := 94%F; "temperature" := 36.8%F;
     "systolic" := 120%F; "diastolic" := 80%F; "altitude" := 6200%F ]}.

(** A reading classified high with a warning spo2 and a critical heart
    rate. *)
Definition reading_high_two_rules : gmap string float :=
  {[ "heart_rate" := 130%F; "spo2" := 90%F; "temperature" := 36.8%F;
     "systolic" := 120%F; "diastolic" := 80%F; "altitude" := 4500%F ]}.

End Spec.

(** * Properties *)

(** ** The float model on the constants of the source *)

Example literal_36_1 : 36.1%F = S754_finite false 5080623329627341 (-47).
Proof. reflexivity. Qed.

(** [(1.30 - 1.0) * 30] is [9.000000000000002] and rounds to [9.0]. *)
Example product_1_30 :
  ((1.30 - 1.0) * 30)%F = S754_finite false 5066549580791809 (-49)
  /\ round1 ((1.30 - 1.0) * 30)%F = 9%F.
Proof. split; reflexivity. Qed.

(** Ties go to the even digit on the exact binary value: [round(0.25, 1)]
    is [0.2], [round(0.75, 1)] is [0.8], and [round(2.675, 1)] is [2.7]. *)
Example round1_samples :
  round1 0.25%F = 0.2%F /\ round1 0.75%F = 0.8%F /\ round1 2.675%F = 2.7%F
  /\ round1 0.05%F = 0.1%F /\ round1 0.15%F = 0.1%F /\ round1 23.4%F = 23.4%F.
Proof. repeat split; reflexivity. Qed.

(** ** The order and the product of floats *)

Section FloatOrder.

Local Ltac cases_compare :=
  repeat match goal with
  | H : context [Pos.compare_cont Eq ?a ?b] |- _ =>
      change (Pos.compare_cont Eq a b) with (Pos.compare a b) in H
  | |- context [Pos.compare_cont Eq ?a ?b] =>
      change (Pos.compare_cont Eq a b) with (Pos.compare a b)
  end;
  repeat match goal with
  | H : context [Z.compare ?a ?b] |- _ => destruct (Z.compare_spec a b); simpl in H
  | |- context [Z.compare ?a ?b] => destruct (Z.compare_spec a b); simpl
  | H : context [Pos.compare ?a ?b] |- _ => destruct (Pos.compare_spec a b); simpl in H
  | |- context [Pos.compare ?a ?b] => destruct (Pos.compare_spec a b); simpl
  end;
  try discriminate; try reflexivity; try lia.

Lemma fle_trans (x y z : float) :
  (x <=? y)%F = true -> (y <=? z)%F = true -> (x <=? z)%F = true.
Proof.
  unfold fle, SFleb, SFcompare.
  destruct x as [sx|sx| |sx mx ex], y as [sy|sy| |sy my ey], z as [sz|sz| |sz mz ez];
    try destruct sx; try destruct sy; try destruct sz; simpl;
    try discriminate; try reflexivity; intros Hxy Hyz; cases_compare.
Qed.

Lemma fle_refl (x : float) : Spec.is_nan x = false -> (x <=? x)%F = true.
Proof.
  unfold fle, SFleb, SFcompare.
  destruct x as [sx|sx| |sx mx ex]; try destruct sx; simpl;
    try discriminate; try reflexivity; intros _;
    rewrite Z.compare_refl; change (Pos.compare_cont Eq mx mx) with (Pos.compare mx mx);
    rewrite Pos.compare_refl; reflexivity.
Qed.

(** On numbers, [not (x > m)] is [x <= m]. *)
Lemma not_fgt_fle (x m : float) :
  Spec.is_nan x = false -> Spec.is_nan m = false ->
  (x >? m)%F = false -> (x <=? m)%F = true.
Proof.
  unfold fgt, fle, SFltb, SFleb, SFcompare.
  destruct x as [sx|sx| |sx mx ex], m as [sm|sm| |sm mm em];
    try destruct sx; try destruct sm; simpl;
    try discriminate; try reflexivity; intros _ _ H; cases_compare.
Qed.

Lemma fgt_fle (x m : float) : (x >? m)%F = true -> (m <=? x)%F = true.
Proof.
  unfold fgt, fle, SFltb, SFleb.
  destruct (SFcompare m x) as [[]|]; try discriminate; reflexivity.
Qed.

Lemma fmul_comm (x y : float) : (x * y)%F = (y * x)%F.
Proof.
  unfold fmul.
  destruct x as [sx|sx| |sx mx ex], y as [sy|sy| |sy my ey]; simpl;
    try reflexivity; try (rewrite (xorb_comm sx sy); reflexivity).
  rewrite (xorb_comm sx sy), (Pos.mul_comm mx my), (Z.add_comm ex ey). reflexivity.
Qed.

End FloatOrder.

(** ** The altitude factor *)

Section AltitudeFactor.

Lemma sorted_altitude_factors :
  sorted_reverse altitude_factors =
  [ (7000, 1.75%F); (5500, 1.50%F); (4000, 1.30%F);
    (2500, 1.15%F); (1000, 1.05%F); (0, 1.0%F) ].
Proof. reflexivity. Qed.

(** The loop, on any list of items whose keys strictly decrease. *)
Lemma first_reached_step_value (altitude : float) (items : list (Z * float)) :
  StronglySorted (fun p q => fst q < fst p) items ->
  Spec.step_value items altitude (first_reached altitude items).
Proof.
  induction 1 as [|[alt factor] rest Hsorted IH Hhead]; simpl.
  - right. split; [|reflexivity]. intros b f Hin. inversion Hin.
  - destruct (altitude >=? of_Z alt)%F eqn:Hge.
    + left. exists alt, factor. repeat split.
      * constructor.
      * exact Hge.
      * intros b' f' Hin _. apply elem_of_cons in Hin as [Heq|Hin].
        -- inversion Heq. lia.
        -- rewrite Forall_forall in Hhead. specialize (Hhead _ Hin). simpl in Hhead. lia.
    + destruct IH as [(b & f & Hin & Hb & Hmax & Hres)|[Hnone Hres]].
      * left. exists b, f. repeat split; auto.
        -- now constructor.
        -- intros b' f' Hin' Hb'. apply elem_of_cons in Hin' as [Heq|Hin'].
           ++ inversion Heq; subst. unfold Spec.reached, fle in Hb'. unfold fge in Hge. congruence.
           ++ eauto.
      * right. split; [|exact Hres].
        intros b f Hin Hb. apply elem_of_cons in Hin as [Heq|Hin].
        -- inversion Heq; subst. unfold Spec.reached, fle in Hb. unfold fge in Hge. congruence.
        -- exact (Hnone b f Hin Hb).
Qed.

Lemma sorted_items_decrease :
  StronglySorted (fun p q : Z * float => fst q < fst p) (sorted_reverse altitude_factors).
Proof.
  rewrite sorted_altitude_factors.
  repeat (constructor; [|repeat (constructor; [simpl; lia|]); constructor]).
  constructor.
Qed.

Lemma step_value_same_items (l l' : list (Z * float)) (altitude result : float) :
  (forall p, p ∈ l <-> p ∈ l') ->
  Spec.step_value l altitude result -> Spec.step_value l' altitude result.
Proof.
  intros Hsame [(b & f & Hin & Hb & Hmax & Hres)|[Hnone Hres]].
  - left. exists b, f. repeat split; auto.
    + now apply Hsame.
    + intros b' f' Hin'. apply (Hmax b' f'). now apply Hsame.
  - right. split; [|exact Hres]. intros b f Hin. apply (Hnone b f). now apply Hsame.
Qed.

(** C4: [_get_altitude_factor] returns the factor of the largest
    breakpoint [<= altitude] of the table
    {0:1.0, 1000:1.05, 2500:1.15, 4000:1.30, 5500:1.50, 7000:1.75}, and
    1.0 when no breakpoint is [<= altitude]; factor(0)=1.0,
    factor(999)=1.0, factor(1000)=1.05 and factor(7001)=1.75. *)
Theorem altitude_factor_step_function :
  (forall altitude : float,
     Spec.step_value Spec.breakpoints altitude (_get_altitude_factor altitude))
  /\ _get_altitude_factor 0 = 1.0%F
  /\ _get_altitude_factor 999 = 1.0%F
  /\ _get_altitude_factor 1000 = 1.05%F
  /\ _get_altitude_factor 7001 = 1.75%F.
Proof.
  split; [|repeat split; reflexivity].
  intros altitude. unfold _get_altitude_factor.
  apply (step_value_same_items (sorted_reverse altitude_factors)).
  - intros p. rewrite sorted_altitude_factors. unfold Spec.breakpoints.
    rewrite !elem_of_cons. rewrite !elem_of_nil. tauto.
  - apply first_reached_step_value, sorted_items_decrease.
Qed.

End AltitudeFactor.

(** ** The vital assessor *)

Section VitalAssessor.

Lemma orb_below_or_above (v lo hi : float) :
  (v <? lo)%F || (v >? hi)%F = true <-> Spec.below_or_above v lo hi.
Proof. unfold Spec.below_or_above. rewrite orb_true_iff. reflexivity. Qed.

(** [_assess_vital] raises on no name of the table. *)
Lemma assess_vital_defined (vital_name : string) (th : Thresholds) (v : float) :
  thresholds !! vital_name = Some th -> is_Some (_assess_vital vital_name v).
Proof.
  intros Hth. unfold _assess_vital. rewrite Hth. simpl.
  destruct (_ || _); [|destruct (_ || _)]; eauto.
Qed.

(** C7: on every name of the threshold table and every float,
    [_assess_vital] returns a status: critical with severity 2 when the
    value is below [critical_low] or above [critical_high], else warning
    with severity 1 when it is below [min] or above [max], else normal
    with severity 0; [in_range] holds exactly when the status is normal.
    It never fails, whatever the float. *)
Theorem assess_vital_rule (vital_name : string) (th : Thresholds) (v : float) :
  thresholds !! vital_name = Some th ->
  exists r, _assess_vital vital_name v = Some r /\ Spec.follows_rule th v r.
Proof.
  intros Hth. unfold _assess_vital. rewrite Hth. simpl.
  destruct ((v <? critical_low th)%F || (v >? critical_high th)%F) eqn:Hcrit.
  - eexists. split; [reflexivity|].
    apply orb_below_or_above in Hcrit.
    unfold Spec.follows_rule; simpl. repeat split; try tauto; try discriminate.
  - assert (~ Spec.below_or_above v (critical_low th) (critical_high th)) as Hnc
      by (rewrite <- orb_below_or_above, Hcrit; discriminate).
    destruct ((v <? th_min th)%F || (v >? th_max th)%F) eqn:Hwarn.
    + eexists. split; [reflexivity|].
      apply orb_below_or_above in Hwarn.
      unfold Spec.follows_rule; simpl. repeat split; try tauto; try discriminate.
    + assert (~ Spec.below_or_above v (th_min th) (th_max th)) as Hnw
        by (rewrite <- orb_below_or_above, Hwarn; discriminate).
      eexists. split; [reflexivity|].
      unfold Spec.follows_rule; simpl. repeat split; try tauto; try discriminate.
Qed.

(** The table has the five names of the specification and no other. *)
Lemma thresholds_names (vital_name : string) :
  is_Some (thresholds !! vital_name) <->
  vital_name ∈ ["heart_rate"; "spo2"; "temperature"; "systolic"; "diastolic"].
Proof.
  unfold thresholds. rewrite !elem_of_cons, elem_of_nil.
  rewrite !lookup_insert_is_Some, lookup_singleton_is_Some.
  intuition congruence.
Qed.

(** An spo2 of 85 is critical; a NaN breaks no bound and is normal. *)
Lemma assess_vital_rule_witness :
  (exists r, _assess_vital "spo2" 85 = Some r /\ status r = critical /\ severity r = 2)
  /\ (exists r, _assess_vital "heart_rate" S754_nan = Some r /\ status r = normal).
Proof.
  split.
  - destruct (assess_vital_rule "spo2"
                {| th_min := 92; th_max := 100; critical_low := 88; critical_high := 100 |}
                85 eq_refl) as (r & Hr & _ & Hcrit & _).
    exists r. split; [exact Hr|]. apply Hcrit. left. reflexivity.
  - destruct (assess_vital_rule "heart_rate"
                {| th_min := 60; th_max := 100; critical_low := 50; critical_high := 120 |}
                S754_nan eq_refl) as (r & Hr & _ & _ & _ & Hnormal & _).
    exists r. split; [exact Hr|].
    apply Hnormal; intros [H|H]; discriminate H.
Defined.

End VitalAssessor.

(** ** The health score *)

Section HealthScore.

(** C9: the health score does not increase when one of the four
    severities increases and the other three stay, and it lies in
    [[0, 100]]. *)
Theorem health_score_monotone (hr hr' spo2 spo2' temp temp' : VitalStatus) (bp bp' : BPStatus) :
  severity hr <= severity hr' ->
  severity spo2 <= severity spo2' ->
  severity temp <= severity temp' ->
  bp_severity bp <= bp_severity bp' ->
  _calculate_health_score hr' spo2 temp bp <= _calculate_health_score hr spo2 temp bp
  /\ _calculate_health_score hr spo2' temp bp <= _calculate_health_score hr spo2 temp bp
  /\ _calculate_health_score hr spo2 temp' bp <= _calculate_health_score hr spo2 temp bp
  /\ _calculate_health_score hr spo2 temp bp' <= _calculate_health_score hr spo2 temp bp
  /\ 0 <= _calculate_health_score hr spo2 temp bp <= 100.
Proof.
  unfold _calculate_health_score, health_score_of. lia.
Qed.

(** From all normal (score 100), one critical vital at a time: 70, 60,
    80 and 70. *)
Lemma health_score_monotone_witness :
  _calculate_health_score Spec.sample_critical Spec.sample_normal Spec.sample_normal
      Spec.sample_bp_normal
    <= _calculate_health_score Spec.sample_normal Spec.sample_normal Spec.sample_normal
         Spec.sample_bp_normal
  /\ _calculate_health_score Spec.sample_normal Spec.sample_critical Spec.sample_normal
       Spec.sample_bp_normal
    <= _calculate_health_score Spec.sample_normal Spec.sample_normal Spec.sample_normal
         Spec.sample_bp_normal
  /\ _calculate_health_score Spec.sample_normal Spec.sample_normal Spec.sample_critical
       Spec.sample_bp_normal
    <= _calculate_health_score Spec.sample_normal Spec.sample_normal Spec.sample_normal
         Spec.sample_bp_normal
  /\ _calculate_health_score Spec.sample_normal Spec.sample_normal Spec.sample_normal
       Spec.sample_bp_critical
    <= _calculate_health_score Spec.sample_normal Spec.sample_normal Spec.sample_normal
         Spec.sample_bp_normal
  /\ 0 <= _calculate_health_score Spec.sample_normal Spec.sample_normal Spec.sample_normal
            Spec.sample_bp_normal <= 100.
Proof.
  apply (health_score_monotone
           Spec.sample_normal Spec.sample_critical
           Spec.sample_normal Spec.sample_critical
           Spec.sample_normal Spec.sample_critical
           Spec.sample_bp_normal Spec.sample_bp_critical); simpl; lia.
Defined.

Example health_score_samples :
  health_score_of 0 0 0 0 = 100 /\ health_score_of 2 0 0 0 = 70
  /\ health_score_of 0 2 0 0 = 60 /\ health_score_of 0 0 2 0 = 80
  /\ health_score_of 2 2 2 2 = 0.
Proof. repeat split; reflexivity. Qed.

End HealthScore.

(** ** The four risk predictors *)

Section RiskPredictors.

(** Every comparison of an input with a constant is settled one way or
    the other; what remains is a closed computation. *)
Local Ltac settle_comparisons :=
  repeat match goal with
  | |- context [flt ?x ?y] => destruct (flt x y)
  | |- context [fgt ?x ?y] => destruct (fgt x y)
  | |- context [fge ?x ?y] => destruct (fge x y)
  end.

Local Ltac by_cases :=
  settle_comparisons; vm_compute; split; reflexivity.

Lemma hypoxia_in_0_100 (spo2 altitude heart_rate : float) :
  Spec.in_0_100 (percentage (_predict_hypoxia_risk spo2 altitude heart_rate)).
Proof.
  unfold _predict_hypoxia_risk, _get_altitude_factor.
  rewrite sorted_altitude_factors. cbn [first_reached percentage].
  by_cases.
Qed.

Lemma altitude_sickness_in_0_100 (altitude spo2 heart_rate : float) :
  Spec.in_0_100 (percentage (_predict_altitude_sickness altitude spo2 heart_rate)).
Proof. unfold _predict_altitude_sickness. cbn [percentage]. by_cases. Qed.

Lemma cardiac_stress_in_0_100 (heart_rate systolic diastolic : float) :
  Spec.in_0_100 (percentage (_predict_cardiac_stress heart_rate systolic diastolic)).
Proof. unfold _predict_cardiac_stress. cbn [percentage]. by_cases. Qed.

Lemma hypothermia_in_0_100 (temperature altitude : float) :
  Spec.in_0_100 (percentage (_predict_hypothermia temperature altitude)).
Proof. unfold _predict_hypothermia. cbn [percentage]. by_cases. Qed.

(** C8: whatever floats the six inputs are, each of the four predictors
    returns a percentage in [[0, 100]]; a heart rate of 10000 still gives
    a cardiac percentage of at most 100. *)
Theorem predictors_saturate (spo2 altitude heart_rate temperature systolic diastolic : float) :
  Spec.in_0_100 (percentage (_predict_hypoxia_risk spo2 altitude heart_rate))
  /\ Spec.in_0_100 (percentage (_predict_altitude_sickness altitude spo2 heart_rate))
  /\ Spec.in_0_100 (percentage (_predict_cardiac_stress heart_rate systolic diastolic))
  /\ Spec.in_0_100 (percentage (_predict_hypothermia temperature altitude))
  /\ (percentage (_predict_cardiac_stress 10000 systolic diastolic) <=? 100)%F = true.
Proof.
  repeat split;
    first [ apply hypoxia_in_0_100 | apply altitude_sickness_in_0_100
          | apply cardiac_stress_in_0_100 | apply hypothermia_in_0_100 ].
Qed.

End RiskPredictors.

(** ** The risk aggregator *)

Section Aggregator.

Lemma py_max2_spec (m x : float) :
  Spec.is_nan m = false -> Spec.is_nan x = false ->
  (py_max2 m x = m \/ py_max2 m x = x)
  /\ (m <=? py_max2 m x)%F = true
  /\ (x <=? py_max2 m x)%F = true
  /\ Spec.is_nan (py_max2 m x) = false.
Proof.
  intros Hm Hx. unfold py_max2. destruct (x >? m)%F eqn:Hgt.
  - repeat split; auto using fgt_fle, fle_refl.
  - repeat split; auto using not_fgt_fle, fle_refl.
Qed.

(** On numbers, Python's [max] of four is a maximum of the four. *)
Lemma py_max4_is_max (a b c d : float) :
  Spec.is_nan a = false -> Spec.is_nan b = false ->
  Spec.is_nan c = false -> Spec.is_nan d = false ->
  Spec.is_max (py_max4 a b c d) [a; b; c; d].
Proof.
  intros Ha Hb Hc Hd. unfold py_max4.
  destruct (py_max2_spec a b Ha Hb) as (Hab & Ha1 & Hb1 & Hn1).
  set (m1 := py_max2 a b) in *.
  destruct (py_max2_spec m1 c Hn1 Hc) as (Hm1c & Hm12 & Hc2 & Hn2).
  set (m2 := py_max2 m1 c) in *.
  destruct (py_max2_spec m2 d Hn2 Hd) as (Hm2d & Hm23 & Hd3 & Hn3).
  set (m3 := py_max2 m2 d) in *.
  split.
  - rewrite !elem_of_cons.
    destruct Hm2d as [->| ->]; [|tauto].
    destruct Hm1c as [->| ->]; [|tauto].
    destruct Hab as [->| ->]; tauto.
  - intros x. rewrite !elem_of_cons, elem_of_nil.
    intros [->|[->|[->|[->|[]]]]]; eauto using fle_trans.
Qed.

(** A percentage in [[0, 100]] is a number. *)
Lemma in_0_100_number (x : float) : Spec.in_0_100 x -> Spec.is_nan x = false.
Proof. intros [_ H]. destruct x; [reflexivity..|discriminate H|reflexivity]. Qed.

(** C6: on four percentages that are numbers, the aggregator returns
    [0.6 × max + 0.4 × mean] of the four, rounded to one decimal, with the
    level critical when the unrounded value is above 70, high above 50,
    moderate above 30 and low otherwise. *)
Theorem aggregator_formula (hypoxia altitude_sickness cardiac hypothermia : RiskPrediction) :
  Spec.is_nan (percentage hypoxia) = false ->
  Spec.is_nan (percentage altitude_sickness) = false ->
  Spec.is_nan (percentage cardiac) = false ->
  Spec.is_nan (percentage hypothermia) = false ->
  exists m overall,
    Spec.is_max m [percentage hypoxia; percentage altitude_sickness;
                   percentage cardiac; percentage hypothermia]
    /\ overall = Spec.weighted m (Spec.mean4 (percentage hypoxia) (percentage altitude_sickness)
                                            (percentage cardiac) (percentage hypothermia))
    /\ _determine_overall_risk hypoxia altitude_sickness cardiac hypothermia =
       {| overall_percentage := round1 overall;
          overall_level := Spec.aggregate_level overall |}.
Proof.
  intros Hh Ha Hc Ht.
  eexists _, _. split; [apply (py_max4_is_max _ _ _ _ Hh Ha Hc Ht)|].
  split; [reflexivity|].
  unfold _determine_overall_risk, overall_of, Spec.weighted, Spec.mean4, Spec.aggregate_level.
  cbv zeta.
  rewrite (fmul_comm 0.6%F), (fmul_comm 0.4%F). reflexivity.
Qed.

(** The four percentages of the first self-test reading, 9.0, 30.0, 0.0
    and 15.0: the maximum is 30.0 and the overall risk 23.4, low. *)
Lemma aggregator_formula_witness :
  exists m overall,
    Spec.is_max m [9%F; 30%F; 0%F; 15%F]
    /\ overall = Spec.weighted m (Spec.mean4 9 30 0 15)
    /\ _determine_overall_risk
         (_predict_hypoxia_risk 96 5400 72) (_predict_altitude_sickness 5400 96 72)
         (_predict_cardiac_stress 72 120 80) (_predict_hypothermia 36.8 5400) =
       {| overall_percentage := round1 overall;
          overall_level := Spec.aggregate_level overall |}.
Proof.
  exact (aggregator_formula
           (_predict_hypoxia_risk 96 5400 72) (_predict_altitude_sickness 5400 96 72)
           (_predict_cardiac_stress 72 120 80) (_predict_hypothermia 36.8 5400)
           eq_refl eq_refl eq_refl eq_refl).
Defined.

Example aggregator_sample :
  overall_of 9 30 0 15 = {| overall_percentage := 23.4; overall_level := low |}
  /\ overall_of 35 70 20 15 = {| overall_percentage := 56; overall_level := high |}
  /\ overall_of 70 70 70 70 = {| overall_percentage := 70; overall_level := high |}.
Proof. repeat split; reflexivity. Qed.

End Aggregator.

(** ** The assessment of a reading *)

Section Assessment.

(** [predict] never raises: the five names it assesses are in the table. *)
Lemma predict_total (now : Z) (vitals : gmap string float) :
  is_Some (predict now vitals).
Proof.
  unfold predict, _assess_blood_pressure.
  set (hr := default _ (vitals !! "heart_rate")).
  set (spo2 := default _ (vitals !! "spo2")).
  set (temperature := default _ (vitals !! "temperature")).
  set (systolic := default _ (vitals !! "systolic")).
  set (diastolic := default _ (vitals !! "diastolic")).
  destruct (assess_vital_defined "heart_rate" _ hr eq_refl) as [r1 ->].
  destruct (assess_vital_defined "spo2" _ spo2 eq_refl) as [r2 ->].
  destruct (assess_vital_defined "temperature" _ temperature eq_refl) as [r3 ->].
  destruct (assess_vital_defined "systolic" _ systolic eq_refl) as [r4 ->].
  destruct (assess_vital_defined "diastolic" _ diastolic eq_refl) as [r5 ->].
  simpl. eauto.
Qed.

(** At 5400 m the factor is that of the breakpoint 4000, which is 1.30:
    the hypoxia percentage of the first self-test reading is 9.0. *)
Lemma normal_reading_hypoxia_not_15 :
  _get_altitude_factor 5400 = 1.30%F
  /\ percentage (_predict_hypoxia_risk 96 5400 72) = 9%F
  /\ ~ Spec.normal_reading_assessment 15 [low; moderate].
Proof.
  split; [reflexivity|]. split; [reflexivity|].
  intros H. destruct (H 0) as (r & Hr & _ & _ & _ & _ & _ & Hpct & _).
  vm_compute in Hr. injection Hr as <-. discriminate Hpct.
Qed.

(** C1, amended: the first self-test reading (72, 96, 36.8, 120/80 at
    5400 m) is assessed with every vital normal and in range, health
    score 100, hypoxia percentage 9.0 at level low, overall level low, and
    the one ROUTINE recommendation. *)
Theorem normal_reading_assessed : Spec.normal_reading_assessment 9 [low].
Proof.
  intros now. eexists. split; [vm_compute; reflexivity|].
  simpl. repeat split; try reflexivity.
  - constructor.
  - eexists. split; reflexivity.
Qed.

(** The four percentages of that reading are 9.0, 30.0, 0.0 and 15.0,
    and its overall risk is 23.4. *)
Example normal_reading_percentages (now : Z) :
  exists r,
    predict now reading_normal = Some r
    /\ percentage (rp_hypoxia r) = 9%F /\ percentage (rp_altitude_sickness r) = 30%F
    /\ percentage (rp_cardiac_stress r) = 0%F /\ percentage (rp_hypothermia r) = 15%F
    /\ overall_risk_percentage r = 23.4%F /\ overall_risk_level r = low.
Proof.
  eexists. split; [vm_compute; reflexivity|]. repeat split.
Qed.

End Assessment.

(** ** Recommendations and the message of an alert *)

Section Recommendations.
Import DatabaseManager.

(** C10: the reading (111, 94, 36.8, 120/80 at 6200 m) is classified
    high and gets no recommendation: the list is empty exactly when the
    level is high, the spo2 normal and no vital critical, the ROUTINE
    fallback being kept for the levels low and moderate; the alert created
    for this assessment carries the literal message 'Health risk
    detected'. *)
Theorem high_risk_without_recommendation (now t_query t_insert : Z) (sid : string)
    (timestamp : option string) :
  (forall overall hr spo2 temp bp,
     _generate_recommendations overall hr spo2 temp bp = [] <->
     overall_level overall = high /\ status spo2 = normal /\ status hr <> critical
     /\ status temp <> critical /\ bp_status bp <> critical)
  /\ exists r,
    predict now Spec.reading_high_no_rule = Some r
    /\ overall_risk_level r = high
    /\ overall_risk_percentage r = 56%F
    /\ recommendations r = []
    /\ (status (va_spo2 r) = normal /\ status (va_heart_rate r) = warning
        /\ status (va_temperature r) = normal /\ bp_status (va_blood_pressure r) = normal)
    /\ exists a,
         _check_and_create_alert t_query t_insert
           (response_dict sid timestamp Spec.reading_high_no_rule r) (ml_of_result r) []
         = Some [a]
         /\ message a = "Health risk detected"
         /\ alert_severity a = high.
Proof.
  split.
  - intros [pct lvl] [v1 s1 n1 i1] [v2 s2 n2 i2] [v3 s3 n3 i3] [b1 b2 s4 n4 i4].
    unfold _generate_recommendations. simpl.
    destruct lvl, s1, s2, s3, s4; simpl; try destruct (v3 <? _)%F; simpl;
      (split; [intros H; try discriminate H; repeat split; congruence
              | intros (H1 & H2 & H3 & H4 & H5); congruence]).
  - eexists. split; [vm_compute; reflexivity|].
    simpl. repeat split.
    eexists. repeat split.
Qed.

(** The alert of the reading above carries no recommendation's action. *)
Lemma alert_without_recommendation :
  (exists r a,
     predict 0 Spec.reading_high_no_rule = Some r
     /\ recommendations r = []
     /\ _check_and_create_alert 0 0
          (response_dict "SOL-7842-ALPHA" (Some "2026-02-04T10:30:00")
             Spec.reading_high_no_rule r) (ml_of_result r) []
        = Some [a]
     /\ message a = "Health risk detected")
  /\ ~ Spec.alerts_carry_top_priority.
Proof.
  assert (exists r a,
     predict 0 Spec.reading_high_no_rule = Some r
     /\ recommendations r = []
     /\ _check_and_create_alert 0 0
          (response_dict "SOL-7842-ALPHA" (Some "2026-02-04T10:30:00")
             Spec.reading_high_no_rule r) (ml_of_result r) []
        = Some [a]
     /\ message a = "Health risk detected") as Hcase.
  { eexists _, _. split; [vm_compute; reflexivity|]. repeat split. }
  split; [exact Hcase|].
  destruct Hcase as (r & a & _ & Hrecs & Ha & _). intros H.
  destruct (H 0 0 (response_dict "SOL-7842-ALPHA" (Some "2026-02-04T10:30:00")
             Spec.reading_high_no_rule r) [] a Ha)
    as (rec & Hin & _).
  simpl in Hin. rewrite Hrecs in Hin. inversion Hin.
Qed.

(** C5, amended: a row [_check_and_create_alert] adds carries as message
    the action text of the first recommendation of the assessment, in
    rule order, or the literal 'Health risk detected' when the assessment
    has none, together with the snapshot of heart_rate, spo2, temperature
    and risk_percentage. *)
Theorem created_alert_content (t_query t_insert : Z) (data : VitalsData)
    (ml_analysis : MLAnalysis) (alerts alerts' : list Alert) :
  _check_and_create_alert t_query t_insert data ml_analysis alerts = Some alerts' ->
  alerts' <> alerts ->
  exists sid a,
    soldier_id data = Some sid
    /\ alerts' = alerts ++ [a]
    /\ alert_soldier_id a = sid
    /\ Some (alert_severity a) = ml_overall_risk_level ml_analysis
    /\ alert_severity a ∈ [high; critical_level]
    /\ message a = Spec.first_action_or_fallback (default [] (ml_recommendations ml_analysis))
    /\ vitals_snapshot a =
         {| snap_heart_rate := data_heart_rate data;
            snap_spo2 := data_spo2 data;
            snap_temperature := data_temperature data;
            snap_risk_percentage := ml_overall_risk_percentage ml_analysis |}
    /\ acknowledged a = false
    /\ created_at a = t_insert.
Proof.
  unfold _check_and_create_alert. intros H Hnew.
  destruct (ml_overall_risk_level ml_analysis) as [lvl|] eqn:Hlvl; simpl in H;
    [|injection H as <-; congruence].
  case_bool_decide as Hhigh; [|injection H as <-; congruence].
  case_bool_decide; [injection H as <-; congruence|].
  destruct (soldier_id data) as [sid|]; [|discriminate H].
  simpl in H. injection H as <-.
  eexists sid, _. repeat split; try reflexivity. exact Hhigh.
Qed.

(** An empty table and a hand-written assessment with two
    recommendations. *)
Lemma created_alert_content_witness :
  exists a,
    _check_and_create_alert 0 0
      {| soldier_id := Some "SOL-7842-ALPHA";
         data_timestamp := Some "2026-02-04T10:30:00"; data_heart_rate := Some 130%F;
         data_spo2 := Some 90%F; data_temperature := Some 36.8%F;
         data_ml_analysis :=
           {| ml_overall_risk_level := Some high;
              ml_recommendations := Some [rec_monitor_oxygen; rec_cardiac];
              ml_overall_risk_percentage := Some 54.9%F |} |}
      {| ml_overall_risk_level := Some high;
         ml_recommendations := Some [rec_monitor_oxygen; rec_cardiac];
         ml_overall_risk_percentage := Some 54.9%F |} [] = Some [a]
    /\ message a = "Monitor oxygen saturation closely, consider oxygen therapy"
    /\ snap_risk_percentage (vitals_snapshot a) = Some 54.9%F.
Proof.
  destruct (created_alert_content 0 0
      {| soldier_id := Some "SOL-7842-ALPHA";
         data_timestamp := Some "2026-02-04T10:30:00"; data_heart_rate := Some 130%F;
         data_spo2 := Some 90%F; data_temperature := Some 36.8%F;
         data_ml_analysis :=
           {| ml_overall_risk_level := Some high;
              ml_recommendations := Some [rec_monitor_oxygen; rec_cardiac];
              ml_overall_risk_percentage := Some 54.9%F |} |}
      {| ml_overall_risk_level := Some high;
         ml_recommendations := Some [rec_monitor_oxygen; rec_cardiac];
         ml_overall_risk_percentage := Some 54.9%F |} [] _ eq_refl)
    as (sid & a & _ & Heq & _ & _ & _ & Hmsg & Hsnap & _).
  - discriminate.
  - exists a. split; [exact (f_equal Some Heq)|].
    split; [exact Hmsg|]. rewrite Hsnap. reflexivity.
Defined.

(** The first recommendation need not be the one of highest priority:
    the reading (130, 90, 36.8, 120/80 at 4500 m) is classified high, its
    HIGH spo2 recommendation comes first and becomes the message, and its
    URGENT cardiac one comes second. *)
Example first_is_not_highest (now : Z) :
  exists r,
    predict now Spec.reading_high_two_rules = Some r
    /\ overall_risk_level r = high
    /\ overall_risk_percentage r = 54.9%F
    /\ recommendations r = [rec_monitor_oxygen; rec_cardiac]
    /\ Spec.first_action_or_fallback (recommendations r) = action rec_monitor_oxygen
    /\ Spec.rank (priority rec_monitor_oxygen) < Spec.rank (priority rec_cardiac).
Proof.
  eexists. split; [vm_compute; reflexivity|]. simpl. repeat split.
Qed.

End Recommendations.

(** ** Missing fields *)

Section MissingFields.
Import App.

(** The engine answers the empty reading, with its own defaults. *)
Lemma engine_defaults_missing_fields :
  Spec.lacks_required (∅ : gmap string float)
  /\ (exists r, predict 0 ∅ = Some r
        /\ value (va_heart_rate r) = 72%F /\ value (va_spo2 r) = 96%F
        /\ value (va_temperature r) = 36.8%F /\ health_score r = 100)
  /\ ~ Spec.engine_fails_fast.
Proof.
  split; [left; reflexivity|]. split.
  - eexists. split; [vm_compute; reflexivity|]. repeat split.
  - intros H.
    assert (predict 0 ∅ = None) as Hnone by (apply H; left; reflexivity).
    destruct (predict_total 0 ∅) as [r Hr]. congruence.
Qed.

Lemma with_defaults_lookup (vitals : gmap string float) :
  Spec.with_defaults vitals !! "heart_rate" = Some (default 72%F (vitals !! "heart_rate"))
  /\ Spec.with_defaults vitals !! "spo2" = Some (default 96%F (vitals !! "spo2"))
  /\ Spec.with_defaults vitals !! "temperature" = Some (default 36.8%F (vitals !! "temperature"))
  /\ Spec.with_defaults vitals !! "systolic" = Some (default 120%F (vitals !! "systolic"))
  /\ Spec.with_defaults vitals !! "diastolic" = Some (default 80%F (vitals !! "diastolic"))
  /\ Spec.with_defaults vitals !! "altitude" = Some (default 0%F (vitals !! "altitude")).
Proof. repeat split; reflexivity. Qed.

(** [predict] is [predict] on the reading with the six defaults filled
    in: 72, 96, 36.8, 120, 80 and 0. *)
Lemma predict_with_defaults (now : Z) (vitals : gmap string float) :
  predict now vitals = predict now (Spec.with_defaults vitals).
Proof.
  destruct (with_defaults_lookup vitals) as (H1 & H2 & H3 & H4 & H5 & H6).
  unfold predict. rewrite H1, H2, H3, H4, H5, H6. reflexivity.
Qed.

(** The validation loop finds the first required field the payload
    lacks, and none when the payload has them all. *)
Lemma first_missing_first (data : gmap string JValue) :
  (Spec.payload_lacks_required data ->
     exists field, Spec.first_missing_field data field /\ first_missing data = Some field)
  /\ (~ Spec.payload_lacks_required data -> first_missing data = None).
Proof.
  unfold Spec.payload_lacks_required, Spec.first_missing_field, Spec.required_in_order,
    first_missing, required_fields. simpl.
  case_bool_decide as Hsid.
  { split; [intros _|intros Hno; destruct Hno; exists "soldier_id"; split; [constructor|done]].
    exists "soldier_id". split; [|reflexivity].
    exists [], ["heart_rate"; "spo2"; "temperature"].
    repeat split; [assumption|]. intros f Hf. inversion Hf. }
  case_bool_decide as Hhr.
  { split; [intros _|intros Hno; destruct Hno; exists "heart_rate";
                     split; [rewrite !elem_of_cons; tauto|done]].
    exists "heart_rate". split; [|reflexivity].
    exists ["soldier_id"], ["spo2"; "temperature"].
    repeat split; [assumption|]. intros f Hf.
    rewrite !elem_of_cons, elem_of_nil in Hf.
    destruct Hf as [->|[]]. now apply not_eq_None_Some. }
  case_bool_decide as Hspo2.
  { split; [intros _|intros Hno; destruct Hno; exists "spo2";
                     split; [rewrite !elem_of_cons; tauto|done]].
    exists "spo2". split; [|reflexivity].
    exists ["soldier_id"; "heart_rate"], ["temperature"].
    repeat split; [assumption|]. intros f Hf.
    rewrite !elem_of_cons, elem_of_nil in Hf.
    destruct Hf as [->|[->|[]]]; now apply not_eq_None_Some. }
  case_bool_decide as Htemp.
  { split; [intros _|intros Hno; destruct Hno; exists "temperature";
                     split; [rewrite !elem_of_cons; tauto|done]].
    exists "temperature". split; [|reflexivity].
    exists ["soldier_id"; "heart_rate"; "spo2"], [].
    repeat split; [assumption|]. intros f Hf.
    rewrite !elem_of_cons, elem_of_nil in Hf.
    destruct Hf as [->|[->|[->|[]]]]; now apply not_eq_None_Some. }
  split; [|reflexivity].
  intros (f & Hf & Hnone). rewrite !elem_of_cons, elem_of_nil in Hf.
  destruct Hf as [->|[->|[->|[->|[]]]]]; contradiction.
Qed.

Lemma extract_vitals_lookup (data : gmap string JValue) (vitals : gmap string float) :
  extract_vitals data = Some vitals ->
  vitals !! "heart_rate" = data !! "heart_rate" ≫= py_float
  /\ vitals !! "spo2" = data !! "spo2" ≫= py_float
  /\ vitals !! "temperature" = data !! "temperature" ≫= py_float
  /\ vitals !! "systolic" = py_float (default (JNumeric 120) (data !! "systolic"))
  /\ vitals !! "diastolic" = py_float (default (JNumeric 80) (data !! "diastolic"))
  /\ vitals !! "altitude" = py_float (default (JNumeric 0) (data !! "altitude"))
  /\ ~ Spec.lacks_required vitals.
Proof.
  unfold extract_vitals, Spec.lacks_required. intros H.
  destruct (data !! "heart_rate" ≫= py_float) as [hr|]; [|discriminate H].
  destruct (data !! "spo2" ≫= py_float) as [spo2|]; [|discriminate H].
  destruct (data !! "temperature" ≫= py_float) as [temperature|]; [|discriminate H].
  destruct (py_float (default (JNumeric 120) (data !! "systolic"))) as [systolic|];
    [|discriminate H].
  destruct (py_float (default (JNumeric 80) (data !! "diastolic"))) as [diastolic|];
    [|discriminate H].
  destruct (py_float (default (JNumeric 0) (data !! "altitude"))) as [altitude|];
    [|discriminate H].
  simpl in H. injection H as <-.
  repeat split; try reflexivity.
  intros [H|[H|H]]; discriminate H.
Qed.

(** C2, amended: the [/api/vitals] handler answers a payload that lacks
    soldier_id, heart_rate, spo2 or temperature with a 400 naming the
    first missing field, in that order, before the engine runs, and it
    answers 400 in no other case; when it answers 200 the engine ran on a
    reading holding the heart_rate, spo2 and temperature of the payload,
    with only systolic=120, diastolic=80 and altitude=0 defaulted.  The
    engine itself never fails on a missing key: [predict] fills in
    heart_rate=72, spo2=96, temperature=36.8, systolic=120, diastolic=80
    and altitude=0 and returns a complete result. *)
Theorem missing_fields_handling (now : Z) (data : gmap string JValue)
    (vitals : gmap string float) :
  (Spec.payload_lacks_required data ->
     exists field,
       Spec.first_missing_field data field
       /\ receive_vitals now data = Response400 ("Missing required field: " +:+ field))
  /\ (~ Spec.payload_lacks_required data ->
        forall error, receive_vitals now data <> Response400 error)
  /\ (forall resp, receive_vitals now data = Response200 resp ->
        ~ Spec.payload_lacks_required data
        /\ ~ Spec.lacks_required (resp_vitals resp)
        /\ resp_vitals resp !! "heart_rate" = data !! "heart_rate" ≫= py_float
        /\ resp_vitals resp !! "spo2" = data !! "spo2" ≫= py_float
        /\ resp_vitals resp !! "temperature" = data !! "temperature" ≫= py_float
        /\ resp_vitals resp !! "systolic" = py_float (default (JNumeric 120) (data !! "systolic"))
        /\ resp_vitals resp !! "diastolic" = py_float (default (JNumeric 80) (data !! "diastolic"))
        /\ resp_vitals resp !! "altitude" = py_float (default (JNumeric 0) (data !! "altitude"))
        /\ predict now (resp_vitals resp) = Some (resp_ml_analysis resp))
  /\ is_Some (predict now vitals)
  /\ predict now vitals = predict now (Spec.with_defaults vitals).
Proof.
  destruct (first_missing_first data) as [Hlacks Hhas].
  split; [|split; [|split; [|split]]].
  - intros Hmissing.
    destruct (Hlacks Hmissing) as (field & Hfield & Hfirst).
    exists field. unfold receive_vitals. rewrite Hfirst. auto.
  - intros Hall error. unfold receive_vitals. rewrite (Hhas Hall).
    destruct (_ ≫= _); discriminate.
  - intros resp. unfold receive_vitals.
    destruct (first_missing data) as [field|] eqn:Hfirst; [discriminate|].
    destruct (data !! "soldier_id") as [sid|]; [|discriminate]. simpl.
    destruct (extract_vitals data) as [vs|] eqn:Hvs; [|discriminate]. simpl.
    destruct (predict now vs) as [ml|] eqn:Hml; [|discriminate]. simpl.
    intros [= <-]. simpl.
    destruct (extract_vitals_lookup data vs Hvs) as (H1 & H2 & H3 & H4 & H5 & H6 & H7).
    repeat split; try assumption.
    intros Hmissing. destruct (Hlacks Hmissing) as (field & _ & Hsome). congruence.
  - apply predict_total.
  - apply predict_with_defaults.
Qed.

(** A payload without heart_rate and temperature is refused for its
    heart_rate, a payload without soldier_id for its soldier_id; the empty
    reading is assessed by the engine as the reading (72, 96, 36.8,
    120/80, 0 m). *)
Lemma missing_fields_handling_witness :
  (exists field,
     Spec.first_missing_field
       ({[ "soldier_id" := JText "SOL-7842-ALPHA"; "spo2" := JNumeric 96 ]}
          : gmap string JValue) field
     /\ receive_vitals 0 {[ "soldier_id" := JText "SOL-7842-ALPHA"; "spo2" := JNumeric 96 ]}
        = Response400 ("Missing required field: " +:+ field))
  /\ receive_vitals 0 {[ "soldier_id" := JText "SOL-7842-ALPHA"; "spo2" := JNumeric 96 ]}
     = Response400 "Missing required field: heart_rate"
  /\ receive_vitals 0 {[ "heart_rate" := JNumeric 72; "spo2" := JNumeric 96;
                         "temperature" := JNumeric 36.8 ]}
     = Response400 "Missing required field: soldier_id"
  /\ exists r, predict 0 ∅ = Some r
       /\ value (va_heart_rate r) = 72%F /\ value (va_spo2 r) = 96%F
       /\ value (va_temperature r) = 36.8%F.
Proof.
  destruct (missing_fields_handling 0
              {[ "soldier_id" := JText "SOL-7842-ALPHA"; "spo2" := JNumeric 96 ]} ∅)
    as (Hrefused & _ & _ & [r Hr] & Hdefaults).
  split; [|split; [|split]].
  - apply Hrefused. exists "temperature". split; [|reflexivity].
    unfold Spec.required_in_order. rewrite !elem_of_cons. tauto.
  - reflexivity.
  - reflexivity.
  - exists r. split; [exact Hr|].
    rewrite Hdefaults in Hr. vm_compute in Hr. injection Hr as <-.
    repeat split; reflexivity.
Defined.

End MissingFields.

(** ** The alert table along a run *)

Section AlertTable.
Import DatabaseManager Run.

(** The three outcomes of [store_vitals] on the table. *)
Lemma store_vitals_cases (t_query t_insert : Z) (data : VitalsData) (alerts : list Alert) :
  fst (store_vitals t_query t_insert data alerts) = alerts
  \/ exists sid a,
       soldier_id data = Some sid
       /\ fst (store_vitals t_query t_insert data alerts) = alerts ++ [a]
       /\ level_of data ∈ [high; critical_level]
       /\ alert_soldier_id a = sid /\ alert_severity a = level_of data
       /\ acknowledged a = false /\ created_at a = t_insert
       /\ Forall (fun b => similar_recent sid (level_of data) (t_query - ten_minutes) b = false)
                 alerts.
Proof.
  unfold store_vitals, _check_and_create_alert, level_of.
  destruct (soldier_id data) as [sid|]; [|left; reflexivity].
  destruct (data_timestamp data) as [ts|]; [|left; reflexivity]. simpl.
  set (lvl := default low _).
  case_bool_decide as Hhigh; [|left; reflexivity].
  case_bool_decide as Hcount; [left; reflexivity|].
  right. eexists sid, _. repeat split; try reflexivity; try exact Hhigh.
  apply Forall_forall. intros b Hb.
  destruct (similar_recent sid lvl (t_query - ten_minutes) b) eqn:Hsim; [|reflexivity].
  exfalso. apply Hcount.
  assert (b ∈ filter (λ a, similar_recent sid lvl (t_query - ten_minutes) a = true) alerts)
    as Hin by (apply list_elem_of_filter; auto).
  destruct (filter _ alerts); [inversion Hin|simpl; lia].
Qed.

Lemma spaced_in_order_store (t_query t_insert : Z) (data : VitalsData) (alerts : list Alert) :
  t_query <= t_insert ->
  spaced_in_order alerts ->
  spaced_in_order (fst (store_vitals t_query t_insert data alerts)).
Proof.
  intros Hclock Hspaced.
  destruct (store_vitals_cases t_query t_insert data alerts)
    as [->|(sid & new & _ & -> & _ & Hsid & Hsev & _ & Hcreated & Hnone)]; [exact Hspaced|].
  intros i j a b Hij Ha Hb Hkey Hua Hub.
  apply lookup_snoc_Some in Hb as [[Hj Hb]|[Hj ->]].
  - apply lookup_snoc_Some in Ha as [[Hi Ha]|[Hi _]]; [|lia].
    exact (Hspaced i j a b Hij Ha Hb Hkey Hua Hub).
  - apply lookup_snoc_Some in Ha as [[Hi Ha]|[Hi _]]; [|lia].
    rewrite Forall_forall in Hnone.
    assert (a ∈ alerts) as Hin by (apply list_elem_of_lookup; eauto).
    specialize (Hnone a Hin). unfold similar_recent in Hnone.
    destruct Hkey as [Hk1 Hk2].
    rewrite !bool_decide_eq_true_2 in Hnone by congruence.
    rewrite Hua in Hnone. simpl in Hnone.
    rewrite Z.geb_leb in Hnone. apply Z.leb_gt in Hnone. lia.
Qed.

Lemma spaced_in_order_acknowledge (now id : Z) (alerts : list Alert) :
  spaced_in_order alerts -> spaced_in_order (acknowledge_alert now id alerts).
Proof.
  unfold acknowledge_alert. intros Hspaced i j a b Hij Ha Hb Hkey Hua Hub.
  apply list_lookup_fmap_Some in Ha as (a0 & -> & Ha0).
  apply list_lookup_fmap_Some in Hb as (b0 & -> & Hb0).
  destruct Hkey as [Hk1 Hk2].
  repeat case_bool_decide; simpl in *; try discriminate.
  apply (Hspaced i j a0 b0 Hij Ha0 Hb0); [split|..]; assumption.
Qed.

Lemma spaced_in_order_run (events : list Event) (alerts : list Alert) :
  Forall clock_ok events -> spaced_in_order alerts -> spaced_in_order (run alerts events).
Proof.
  unfold run. intros Hclock. revert alerts.
  induction Hclock as [|e events He _ IH]; intros alerts Hspaced; simpl; [exact Hspaced|].
  apply IH. destruct e as [t_query t_insert data|now id]; simpl.
  - now apply spaced_in_order_store.
  - now apply spaced_in_order_acknowledge.
Qed.

Lemma spaced_in_order_well_spaced (alerts : list Alert) :
  spaced_in_order alerts -> well_spaced alerts.
Proof.
  intros Hspaced i j a b Hij Ha Hb [Hk1 Hk2] Hua Hub.
  destruct (decide (i < j)%nat) as [Hlt|Hge].
  - pose proof (Hspaced i j a b Hlt Ha Hb (conj Hk1 Hk2) Hua Hub). lia.
  - assert (j < i)%nat as Hlt by lia.
    pose proof (Hspaced j i b a Hlt Hb Ha (conj (eq_sym Hk1) (eq_sym Hk2)) Hub Hua). lia.
Qed.

(** Every row of a run from the empty table was created for a high or a
    critical assessment. *)
Lemma severity_run (events : list Event) (alerts : list Alert) :
  Forall (fun a => alert_severity a ∈ [high; critical_level]) alerts ->
  Forall (fun a => alert_severity a ∈ [high; critical_level]) (run alerts events).
Proof.
  unfold run. revert alerts.
  induction events as [|e events IH]; intros alerts Hall; simpl; [exact Hall|].
  apply IH. destruct e as [t_query t_insert data|now id]; simpl.
  - destruct (store_vitals_cases t_query t_insert data alerts)
      as [->|(sid & new & _ & -> & Hhigh & _ & Hsev & _)]; [exact Hall|].
    apply Forall_app. split; [exact Hall|].
    constructor; [|constructor]. rewrite Hsev. exact Hhigh.
  - unfold acknowledge_alert. apply Forall_fmap.
    eapply Forall_impl; [exact Hall|].
    intros a Ha. simpl. case_bool_decide; exact Ha.
Qed.

Lemma store_vitals_not_high (t_query t_insert : Z) (data : VitalsData) (alerts : list Alert) :
  level_of data ∉ [high; critical_level] ->
  fst (store_vitals t_query t_insert data alerts) = alerts.
Proof.
  intros Hlow.
  destruct (store_vitals_cases t_query t_insert data alerts)
    as [H|(sid & new & _ & _ & Hhigh & _)]; [exact H|contradiction].
Qed.

Lemma store_vitals_creates (t_query t_insert : Z) (data : VitalsData) (alerts : list Alert)
    (sid : string) (lvl : Level) :
  classified sid lvl data -> lvl ∈ [high; critical_level] ->
  Forall (fun b => similar_recent sid lvl (t_query - ten_minutes) b = false) alerts ->
  exists a,
    fst (store_vitals t_query t_insert data alerts) = alerts ++ [a]
    /\ alert_soldier_id a = sid /\ alert_severity a = lvl
    /\ acknowledged a = false /\ created_at a = t_insert.
Proof.
  intros (Hsid & [ts Hts] & Hlvl) Hhigh Hnone.
  unfold store_vitals, _check_and_create_alert. rewrite Hsid, Hts, Hlvl. simpl.
  rewrite bool_decide_eq_true_2 by exact Hhigh.
  assert (filter (λ a, similar_recent sid lvl (t_query - ten_minutes) a = true) alerts = [])
    as ->.
  { induction Hnone as [|b l Hb _ IH]; [reflexivity|].
    rewrite filter_cons_False by congruence. exact IH. }
  simpl. eexists. repeat split.
Qed.

Lemma store_vitals_suppressed (t_query t_insert : Z) (data : VitalsData) (alerts : list Alert)
    (sid : string) (lvl : Level) (b : Alert) :
  classified sid lvl data -> b ∈ alerts ->
  similar_recent sid lvl (t_query - ten_minutes) b = true ->
  fst (store_vitals t_query t_insert data alerts) = alerts.
Proof.
  intros (Hsid & [ts Hts] & Hlvl) Hin Hsim.
  unfold store_vitals, _check_and_create_alert. rewrite Hsid, Hts, Hlvl. simpl.
  case_bool_decide; [|reflexivity].
  assert (b ∈ filter (λ a, similar_recent sid lvl (t_query - ten_minutes) a = true) alerts)
    as Hfilter by (apply list_elem_of_filter; auto).
  destruct (filter _ alerts); [inversion Hfilter|]. reflexivity.
Qed.

(** Two high readings of one soldier within a minute, and a third eleven
    minutes after the first: one row, then two.  [e1], [e2] and [e3] are
    the delays between the query and the insert of each call. *)
Lemma three_readings (sid : string) (t0 e1 t2 e2 e3 : Z) (d1 d2 d3 : VitalsData) :
  classified sid high d1 -> classified sid high d2 -> classified sid high d3 ->
  0 <= e1 < minute -> t0 <= t2 <= t0 + minute ->
  length (run [] [Store t0 (t0 + e1) d1; Store t2 (t2 + e2) d2]) = 1%nat
  /\ length (run [] [Store t0 (t0 + e1) d1; Store t2 (t2 + e2) d2;
                     Store (t0 + 11 * minute) (t0 + 11 * minute + e3) d3]) = 2%nat.
Proof.
  intros H1 H2 H3 He1 Ht2. unfold run. simpl.
  assert (high ∈ [high; critical_level]) as Hhigh by constructor.
  destruct (store_vitals_creates t0 (t0 + e1) d1 [] sid high H1 Hhigh)
    as (a1 & -> & Hs1 & Hl1 & Hu1 & Hc1); [constructor|]. simpl.
  assert (similar_recent sid high (t2 - ten_minutes) a1 = true) as Hrecent.
  { unfold similar_recent. rewrite !bool_decide_eq_true_2, Hu1 by assumption. simpl.
    unfold ten_minutes, minute in *. lia. }
  rewrite (store_vitals_suppressed t2 (t2 + e2) d2 [a1] sid high a1 H2)
    by (assumption || constructor).
  split; [reflexivity|].
  destruct (store_vitals_creates (t0 + 11 * minute) (t0 + 11 * minute + e3) d3 [a1] sid high
              H3 Hhigh) as (a3 & -> & _); [|reflexivity].
  constructor; [|constructor].
  unfold similar_recent. rewrite !bool_decide_eq_true_2, Hu1 by assumption. simpl.
  unfold ten_minutes, minute in *. lia.
Qed.

(** A reading without soldier id or without timestamp is not stored:
    [store_vitals] answers [False] and the alert table stays as it is,
    whatever the level. *)
Lemma store_vitals_refused (t_query t_insert : Z) (data : VitalsData) (alerts : list Alert) :
  soldier_id data = None \/ data_timestamp data = None ->
  store_vitals t_query t_insert data alerts = (alerts, false).
Proof.
  unfold store_vitals. intros [-> | ->]; [reflexivity|].
  destruct (soldier_id data); reflexivity.
Qed.

Example store_vitals_null_timestamp :
  store_vitals 0 5 sample_high_no_timestamp [] = ([], false)
  /\ exists a, store_vitals 0 5 sample_high [] = ([a], true).
Proof. split; [reflexivity|eexists; reflexivity]. Qed.

(** C3: along every run of the alert table from the empty table, one
    call at a time, no two unacknowledged rows of one soldier and one
    severity are within ten minutes of each other, and every row was
    created for a high or a critical assessment; an assessment of another
    level leaves the table as it is; two high readings of one soldier
    (readings that carry the soldier id and a timestamp, as stored ones
    do) within one minute leave one row and a third one eleven minutes
    after the first adds a second. *)
Theorem alert_deduplication :
  (forall events, Forall clock_ok events ->
     well_spaced (run [] events)
     /\ Forall (fun a => alert_severity a ∈ [high; critical_level]) (run [] events))
  /\ (forall t_query t_insert data alerts,
        level_of data ∉ [high; critical_level] ->
        step alerts (Store t_query t_insert data) = alerts)
  /\ (forall sid t0 e1 t2 e2 e3 d1 d2 d3,
        classified sid high d1 -> classified sid high d2 -> classified sid high d3 ->
        0 <= e1 < minute -> t0 <= t2 <= t0 + minute ->
        length (run [] [Store t0 (t0 + e1) d1; Store t2 (t2 + e2) d2]) = 1%nat
        /\ length (run [] [Store t0 (t0 + e1) d1; Store t2 (t2 + e2) d2;
                           Store (t0 + 11 * minute) (t0 + 11 * minute + e3) d3]) = 2%nat).
Proof.
  split; [|split].
  - intros events Hclock. split.
    + apply spaced_in_order_well_spaced, spaced_in_order_run; [exact Hclock|].
      intros i j a b _ Ha. inversion Ha.
    + apply severity_run. constructor.
  - intros. simpl. now apply store_vitals_not_high.
  - apply three_readings.
Qed.

(** Soldier SOL-7842-ALPHA: high readings at 0 s, 30 s and 11 min, the
    first row acknowledged at 12 min, a low reading at 13 min. *)
Lemma alert_deduplication_witness :
  well_spaced (run [] [Store 0 5 sample_high; Store 30000000 30000005 sample_high;
                       Store (11 * minute) (11 * minute + 5) sample_high;
                       Acknowledge (12 * minute) 1; Store (13 * minute) (13 * minute) sample_low])
  /\ step [] (Store 0 5 sample_low) = []
  /\ length (run [] [Store 0 (0 + 5) sample_high; Store 30000000 (30000000 + 5) sample_high])
     = 1%nat
  /\ length (run [] [Store 0 (0 + 5) sample_high; Store 30000000 (30000000 + 5) sample_high;
                     Store (0 + 11 * minute) (0 + 11 * minute + 5) sample_high]) = 2%nat.
Proof.
  destruct alert_deduplication as (Hinv & Hlow & Hthree).
  split; [|split].
  - apply Hinv.
    repeat (apply Forall_cons; split; [simpl; unfold minute; try lia; exact I|]).
    apply Forall_nil. exact I.
  - apply Hlow. unfold level_of. simpl. rewrite !elem_of_cons, elem_of_nil.
    intros [H|[H|[]]]; discriminate H.
  - apply (Hthree "SOL-7842-ALPHA" 0 5 30000000 5 5 sample_high sample_high sample_high);
      try (split; [reflexivity|split; [eexists; reflexivity|reflexivity]]);
      unfold minute; lia.
Defined.

End AlertTable.

(** ** The second self-test reading *)

(** (115, 82, 36.5, 140/90 at 6200 m): spo2 critical; at 6200 m the
    factor is 1.50, hypoxia is 60 + 15 + 10 = 85.0 and high, the overall
    risk 83.5 and critical, evacuation comes first and oxygen second. *)
Example critical_hypoxia_reading (now : Z) :
  exists r,
    predict now {[ "heart_rate" := 115%F; "spo2" := 82%F; "temperature" := 36.5%F;
                   "systolic" := 140%F; "diastolic" := 90%F; "altitude" := 6200%F ]} = Some r
    /\ status (va_spo2 r) = critical
    /\ percentage (rp_hypoxia r) = 85%F /\ level (rp_hypoxia r) = high
    /\ overall_risk_level r = critical_level /\ overall_risk_percentage r = 83.5%F
    /\ recommendations r = [rec_evacuation; rec_oxygen].
Proof.
  eexists. split; [vm_compute; reflexivity|]. repeat split.
Qed.
